(** * The placeholder modules [actions.adb], [vision.processor] and
    [planner.strategy], and the import script [test_python_imports.py]

    The three classes are embedded as records of their attributes with
    methods in a state monad over the instance and the Python heap.  The
    heap holds the mutable containers the methods build (the plan [dict],
    the [steps] list, the list returned by [detect_objects]), so that
    "the same object" is a statement about references. *)

From stdpp Require Import gmap strings list fin_maps.
From Stdlib Require Import ZArith.

Local Open Scope Z_scope.
Local Open Scope string_scope.

(** ** Python values and the heap *)

Module Py.

(** Object identities. *)
Abbreviation loc := positive.

(** Immediate values and references to heap objects. *)
Inductive val : Type :=
| VNone
| VBool (b : bool)
| VInt (n : Z)
| VStr (s : string)
| VRef (l : loc).

(** Mutable containers: a [list], and a [dict] with [str] keys kept in
    insertion order. *)
Inductive obj : Type :=
| OList (items : list val)
| ODict (entries : list (string * val)).

Abbreviation heap := (gmap loc obj).

Global Instance val_eq_dec : EqDecision val.
Proof. solve_decision. Defined.

Global Instance obj_eq_dec : EqDecision obj.
Proof. solve_decision. Defined.

(** [d[k]] on the entries of a dict. *)
Fixpoint getitem (k : string) (entries : list (string * val)) : option val :=
  match entries with
  | [] => None
  | (k', v) :: rest => if String.eqb k k' then Some v else getitem k rest
  end.

(** A new object gets an identity no live object has. *)
Definition fresh_loc (h : heap) : loc := fresh (dom h).

Definition alloc (o : obj) (h : heap) : loc * heap :=
  let l := fresh_loc h in (l, <[l := o]> h).

(** Truth value testing, as [if x:] does it: [None], [False], zero, the
    empty string and empty containers are false, any other object is
    true. *)
Definition truthy (h : heap) (v : val) : bool :=
  match v with
  | VNone => false
  | VBool b => b
  | VInt n => negb (Z.eqb n 0)
  | VStr s => negb (String.eqb s "")
  | VRef l =>
      match h !! l with
      | Some (OList items) => negb (Nat.eqb (length items) 0)
      | Some (ODict entries) => negb (Nat.eqb (length entries) 0)
      | None => true
      end
  end.

(** [x is not None]. *)
Definition is_not_None (v : val) : bool :=
  match v with
  | VNone => false
  | _ => true
  end.

(** [x == True]: [bool] is a subclass of [int], so [1 == True]. *)
Definition eq_True (v : val) : bool :=
  match v with
  | VBool b => b
  | VInt n => Z.eqb n 1
  | _ => false
  end.

(** [x == s] for a [str] literal [s]. *)
Definition eq_str (v : val) (s : string) : bool :=
  match v with
  | VStr s' => String.eqb s' s
  | _ => false
  end.

(** The list of strings a value denotes in a heap, if it is a reference
    to a list of [str]. *)
Definition as_str (v : val) : option string :=
  match v with
  | VStr s => Some s
  | _ => None
  end.

Definition str_list (h : heap) (v : val) : option (list string) :=
  match v with
  | VRef l =>
      match h !! l with
      | Some (OList items) => mapM as_str items
      | _ => None
      end
  | _ => None
  end.

(** The items of a list object. *)
Definition list_items (h : heap) (v : val) : option (list val) :=
  match v with
  | VRef l =>
      match h !! l with
      | Some (OList items) => Some items
      | _ => None
      end
  | _ => None
  end.

(** [v[k]] for a reference [v] to a dict. *)
Definition subscript (h : heap) (v : val) (k : string) : option val :=
  match v with
  | VRef l =>
      match h !! l with
      | Some (ODict entries) => getitem k entries
      | _ => None
      end
  | _ => None
  end.

End Py.
Import Py.

(** ** Methods: a state monad over the instance and the heap *)

Definition M (Self A : Type) : Type := Self * heap -> A * (Self * heap).

Global Instance M_ret {Self} : MRet (M Self) :=
  fun A (a : A) st => (a, st).

Global Instance M_bind {Self} : MBind (M Self) :=
  fun A B (k : A -> M Self B) (c : M Self A) st =>
    let '(a, st') := c st in k a st'.

(** [self.field] *)
Definition getattr {Self A} (field : Self -> A) : M Self A :=
  fun st => (field st.1, st).

(** [self.field = ...] *)
Definition setattr {Self} (update : Self -> Self) : M Self unit :=
  fun st => (tt, (update st.1, st.2)).

(** A list or dict display builds a new object. *)
Definition new {Self} (o : obj) : M Self val :=
  fun st => let '(l, h) := alloc o st.2 in (VRef l, (st.1, h)).

(** The condition of an [if]. *)
Definition test {Self} (v : val) : M Self bool :=
  fun st => (truthy st.2 v, st).

(** ** actions/adb.py *)

Module adb.

Record ADBController : Type := { connected : bool }.

Definition __init__ : ADBController := {| connected := false |}.

Definition connect : M ADBController val :=
  setattr (fun _ => {| connected := true |});;
  mret (VBool true).

Definition disconnect : M ADBController val :=
  setattr (fun _ => {| connected := false |});;
  mret (VBool true).

(** A client of one controller: the calls it makes, in order. *)
Inductive invocation : Type :=
| Connect
| Disconnect.

Definition invoke (c : invocation) : M ADBController val :=
  match c with
  | Connect => connect
  | Disconnect => disconnect
  end.

(** The controller and the heap after a sequence of calls. *)
Definition after (calls : list invocation) (st : ADBController * heap)
  : ADBController * heap :=
  foldl (fun st c => (invoke c st).2) st calls.

End adb.

(** ** vision/processor.py *)

Module processor.

Record VisionProcessor : Type := { initialized : bool }.

Definition __init__ : VisionProcessor := {| initialized := false |}.

(** The formatted string literal [f"Processed: {image_path}"] on a [str]
    argument: the replacement field of a [str] is the [str] itself. *)
Definition process_image (image_path : string) : M VisionProcessor val :=
  setattr (fun _ => {| initialized := true |});;
  mret (VStr ("Processed: " ++ image_path)).

Definition detect_objects (image : val) : M VisionProcessor val :=
  new (OList []).

(** A client of one processor: the calls it makes, in order. *)
Inductive invocation : Type :=
| Process_image (image_path : string)
| Detect_objects (image : val).

Definition invoke (c : invocation) : M VisionProcessor val :=
  match c with
  | Process_image image_path => process_image image_path
  | Detect_objects image => detect_objects image
  end.

(** The processor and the heap after a sequence of calls. *)
Definition after (calls : list invocation) (st : VisionProcessor * heap)
  : VisionProcessor * heap :=
  foldl (fun st c => (invoke c st).2) st calls.

Definition is_process (c : invocation) : bool :=
  match c with
  | Process_image _ => true
  | Detect_objects _ => false
  end.

End processor.

(** ** planner/strategy.py *)

Module strategy.

Record Planner : Type := { strategy : val }.

Definition __init__ : Planner := {| strategy := VNone |}.

Definition create_plan (objectives : val) : M Planner val :=
  steps ← new (OList []);
  plan ← new (ODict [("objectives", objectives); ("steps", steps)]);
  setattr (fun _ => {| strategy := plan |});;
  getattr strategy.

Definition execute_plan : M Planner val :=
  plan ← getattr strategy;
  b ← test plan;
  if b : bool then mret (VStr "Plan executed")
  else mret (VStr "No plan to execute").

(** The plan a planner holds tests true. *)
Definition has_plan (st : Planner * heap) : Prop :=
  truthy st.2 (strategy st.1) = true.

(** A client of one planner: the calls it makes, in order. *)
Inductive invocation : Type :=
| Create_plan (objectives : val)
| Execute_plan.

Definition invoke (c : invocation) : M Planner val :=
  match c with
  | Create_plan objectives => create_plan objectives
  | Execute_plan => execute_plan
  end.

(** The planner and the heap after a sequence of calls. *)
Definition after (calls : list invocation) (st : Planner * heap)
  : Planner * heap :=
  foldl (fun st c => (invoke c st).2) st calls.

Definition is_create (c : invocation) : bool :=
  match c with
  | Create_plan _ => true
  | Execute_plan => false
  end.

Definition created (calls : list invocation) : bool :=
  existsb is_create calls.

(** The argument of the last [create_plan] among the calls, if any. *)
Definition objectives_of (c : invocation) : option val :=
  match c with
  | Create_plan objectives => Some objectives
  | Execute_plan => None
  end.

Definition last_objectives (calls : list invocation) : option val :=
  last (omap objectives_of calls).

End strategy.

(** ** Exceptions *)

Module exc.

(** The part of the built-in hierarchy the script's handlers look at,
    and classes derived from it. *)
Inductive exn_class : Type :=
| BaseException
| Exception
| ImportError
| ModuleNotFoundError
| AssertionError
| KeyboardInterrupt
| SystemExit
| GeneratorExit
| Subclass (name : string) (base : exn_class).

Global Instance exn_class_eq_dec : EqDecision exn_class.
Proof. solve_decision. Defined.

(** Method resolution order of a class. *)
Fixpoint mro (c : exn_class) : list exn_class :=
  match c with
  | BaseException => [BaseException]
  | Exception => [Exception; BaseException]
  | ImportError => [ImportError; Exception; BaseException]
  | ModuleNotFoundError =>
      [ModuleNotFoundError; ImportError; Exception; BaseException]
  | AssertionError => [AssertionError; Exception; BaseException]
  | KeyboardInterrupt => [KeyboardInterrupt; BaseException]
  | SystemExit => [SystemExit; BaseException]
  | GeneratorExit => [GeneratorExit; BaseException]
  | Subclass name base => Subclass name base :: mro base
  end.

Definition issubclass (c target : exn_class) : bool :=
  bool_decide (target ∈ mro c).

(** A raised exception: its class and what its [__str__] does when the
    exception is formatted, which is to give a string or to raise in its
    turn. *)
#[local] Set Warnings "-register-all".
Inductive exn : Type :=
  { class_of : exn_class; __str__ : string + exn }.
#[local] Set Warnings "register-all".

Definition isinstance (e : exn) (c : exn_class) : bool :=
  issubclass (class_of e) c.

End exc.
Import exc.

(** ** Scripts: output, heap and exceptions *)

Record world : Type := { stdout : list string; mem : heap }.

Inductive outcome (A : Type) : Type :=
| Returns (a : A)
| Raises (e : exn).
Arguments Returns {A} a.
Arguments Raises {A} e.

Definition Sc (A : Type) : Type := world -> outcome A * world.

Global Instance Sc_ret : MRet Sc :=
  fun A (a : A) w => (Returns a, w).

Global Instance Sc_bind : MBind Sc :=
  fun A B (k : A -> Sc B) (c : Sc A) w =>
    match c w with
    | (Returns a, w') => k a w'
    | (Raises e, w') => (Raises e, w')
    end.

(** [print(line)]; writing to [sys.stdout] is taken to succeed. *)
Definition print (line : string) : Sc unit :=
  fun w => (Returns tt, {| stdout := stdout w ++ [line]; mem := mem w |}).

Definition raise {A} (e : exn) : Sc A :=
  fun w => (Raises e, w).

(** [assert cond] *)
Definition assert (cond : bool) : Sc unit :=
  if cond then mret tt
  else raise {| class_of := AssertionError; __str__ := inl "" |}.

(** [str(e)], as the replacement field [{e}] of a formatted string literal
    evaluates it. *)
Definition str (e : exn) : Sc string :=
  match __str__ e with
  | inl s => mret s
  | inr e' => raise e'
  end.

(** A list display in the script. *)
Definition display (o : obj) : Sc val :=
  fun w => let '(l, h) := alloc o (mem w) in
           (Returns (VRef l), {| stdout := stdout w; mem := h |}).

(** A method of the repository's classes called from a script. *)
Definition call {Self A} (method : M Self A) (self : Self) : Sc (A * Self) :=
  fun w => let '(a, (self', h)) := method (self, mem w) in
           (Returns (a, self'), {| stdout := stdout w; mem := h |}).

(** The [except] clauses of a [try] statement, tried in order. *)
Fixpoint handle {A} (clauses : list (exn_class * (exn -> Sc A))) (e : exn)
  : Sc A :=
  match clauses with
  | [] => raise e
  | (c, handler) :: rest =>
      if isinstance e c then handler e else handle rest e
  end.

Definition try_except {A} (body : Sc A)
    (clauses : list (exn_class * (exn -> Sc A))) : Sc A :=
  fun w =>
    match body w with
    | (Returns a, w') => (Returns a, w')
    | (Raises e, w') => handle clauses e w'
    end.

(** ** test_python_imports.py *)

Module test_python_imports.

(** What the three imported names are bound to when the script runs:
    whatever the import system finds.  A class is its instances, its
    constructor and the one method the script calls; each of them, and
    the import itself, may raise. *)
Record ADBController_class : Type := {
  ADB_instance : Type;
  ADB_new : Sc ADB_instance;
  ADB_connect : ADB_instance -> Sc (val * ADB_instance)
}.

Record VisionProcessor_class : Type := {
  Vision_instance : Type;
  Vision_new : Sc Vision_instance;
  Vision_process_image :
    Vision_instance -> string -> Sc (val * Vision_instance)
}.

Record Planner_class : Type := {
  Planner_instance : Type;
  Planner_new : Sc Planner_instance;
  Planner_create_plan :
    Planner_instance -> val -> Sc (val * Planner_instance)
}.

Record imports : Type := {
  import_ADBController : Sc ADBController_class;
  import_VisionProcessor : Sc VisionProcessor_class;
  import_Planner : Sc Planner_class
}.

(** The imports when the repository's own modules are found. *)
Definition repository : imports := {|
  import_ADBController := mret {|
    ADB_instance := adb.ADBController;
    ADB_new := mret adb.__init__;
    ADB_connect := call adb.connect
  |};
  import_VisionProcessor := mret {|
    Vision_instance := processor.VisionProcessor;
    Vision_new := mret processor.__init__;
    Vision_process_image := fun self image_path =>
      call (processor.process_image image_path) self
  |};
  import_Planner := mret {|
    Planner_instance := strategy.Planner;
    Planner_new := mret strategy.__init__;
    Planner_create_plan := fun self objectives =>
      call (strategy.create_plan objectives) self
  |}
|}.

(** The body of the [try] statement. *)
Definition try_body (I : imports) : Sc bool :=
  ADBController ← import_ADBController I;
  VisionProcessor ← import_VisionProcessor I;
  Planner ← import_Planner I;
  print "✅ All imports successful!";;
  adb ← ADB_new ADBController;
  vision ← Vision_new VisionProcessor;
  planner ← Planner_new Planner;
  print "✅ All modules instantiated successfully!";;
  r ← ADB_connect ADBController adb;
  assert (eq_True r.1);;
  r ← Vision_process_image VisionProcessor vision "test.jpg";
  assert (eq_str r.1 "Processed: test.jpg");;
  objectives ← display (OList [VStr "objective1"]);
  r ← Planner_create_plan Planner planner objectives;
  assert (is_not_None r.1);;
  print "✅ All module functions working correctly!";;
  mret true.

Definition test_imports (I : imports) : Sc bool :=
  try_except (try_body I)
    [ (ImportError,
       fun e => s ← str e; print ("❌ Import error: " ++ s);; mret false);
      (Exception,
       fun e => s ← str e; print ("❌ Error: " ++ s);; mret false) ].

(** How the process ends: [exit(code)], or an exception nothing caught. *)
Inductive termination : Type :=
| Exit (code : Z)
| Uncaught (e : exn).

(** The [if __name__ == "__main__":] block. *)
Definition main (I : imports) (w : world) : termination * world :=
  match test_imports I w with
  | (Returns success, w') => (Exit (if success : bool then 0 else 1), w')
  | (Raises e, w') => (Uncaught e, w')
  end.

End test_python_imports.
Import test_python_imports.

(** ** Sample inputs *)

Module samples.





(** An [ImportError] subclass whose [__str__] raises a [TypeError]. *)
Definition unprintable : exn :=
  {| class_of := Subclass "PluginError" ImportError;
     __str__ := inr {| class_of := Subclass "TypeError" Exception;
                       __str__ := inl "__str__ returned non-string" |} |}.

Definition import_unprintable : imports := {|
  import_ADBController := raise unprintable;
  import_VisionProcessor := import_VisionProcessor repository;
  import_Planner := import_Planner repository
|}.

(** An [ADBController] whose [connect] returns [None]. *)
Definition connect_returns_None : imports := {|
  import_ADBController := mret {|
    ADB_instance := adb.ADBController;
    ADB_new := mret adb.__init__;
    ADB_connect := fun self => mret (VNone, self)
  |};
  import_VisionProcessor := import_VisionProcessor repository;
  import_Planner := import_Planner repository
|}.

(** A heap holding the list [["objective1"]], and one holding [[]]. *)
Definition one_objective : heap := {[ 1%positive := OList [VStr "objective1"] ]}.
Definition no_objective : heap := {[ 1%positive := OList [] ]}.

End samples.
Import samples.

(** * Properties *)

(** ** The heap *)

Section heap_facts.
Implicit Types (h : heap) (o : obj) (l : loc) (v : val).

Lemma fresh_loc_unused h : h !! fresh_loc h = None.
Proof. apply not_elem_of_dom. unfold fresh_loc. apply is_fresh. Qed.

Lemma alloc_lookup o h : (alloc o h).2 !! (alloc o h).1 = Some o.
Proof. unfold alloc. simpl. apply lookup_insert_eq. Qed.

Lemma alloc_frame o h l o' :
  h !! l = Some o' -> (alloc o h).2 !! l = Some o'.
Proof.
  intros Hl. unfold alloc. simpl.
  rewrite lookup_insert_ne; [done |].
  intros Heq. rewrite <- Heq, fresh_loc_unused in Hl. discriminate.
Qed.

Lemma list_items_alloc items h :
  list_items (alloc (OList items) h).2 (VRef (alloc (OList items) h).1)
    = Some items.
Proof. unfold list_items. by rewrite alloc_lookup. Qed.

Lemma subscript_alloc entries h k :
  subscript (alloc (ODict entries) h).2 (VRef (alloc (ODict entries) h).1) k
    = getitem k entries.
Proof. unfold subscript. by rewrite alloc_lookup. Qed.

Lemma list_items_frame o h v items :
  list_items h v = Some items -> list_items (alloc o h).2 v = Some items.
Proof.
  unfold list_items. destruct v as [| | | |l]; try discriminate.
  destruct (h !! l) as [[xs|es]|] eqn:Hl; try discriminate.
  intros [= <-]. by rewrite (alloc_frame _ _ _ _ Hl).
Qed.

Lemma str_list_frame o h v ss :
  str_list h v = Some ss -> str_list (alloc o h).2 v = Some ss.
Proof.
  unfold str_list. destruct v as [| | | |l]; try discriminate.
  destruct (h !! l) as [[xs|es]|] eqn:Hl; try discriminate.
  intros Hss. by rewrite (alloc_frame _ _ _ _ Hl).
Qed.

End heap_facts.

(** ** ADBController *)

(** C6: whatever the controller's state, [connect()] returns [True] and
    leaves [connected] true. *)
Theorem connect_returns_true_and_connects (self : adb.ADBController) (h : heap) :
  (adb.connect (self, h)).1 = VBool true /\
  adb.connected (adb.connect (self, h)).2.1 = true.
Proof. split; reflexivity. Qed.

(** C7: whatever the controller's state, [disconnect()] returns [True] and
    leaves [connected] false. *)
Theorem disconnect_returns_true_and_disconnects
    (self : adb.ADBController) (h : heap) :
  (adb.disconnect (self, h)).1 = VBool true /\
  adb.connected (adb.disconnect (self, h)).2.1 = false.
Proof. split; reflexivity. Qed.

(** ** VisionProcessor *)

(** C3: for every string [s], [process_image(s)] returns ["Processed: "]
    (the prefix, a colon, one space) followed by [s], and sets
    [initialized] to true. *)
Theorem process_image_formats_and_initializes
    (s : string) (self : processor.VisionProcessor) (h : heap) :
  (processor.process_image s (self, h)).1
    = VStr ("Processed: " ++ s) /\
  processor.initialized (processor.process_image s (self, h)).2.1 = true.
Proof. split; reflexivity. Qed.

(** C8: for every argument and every processor state, [detect_objects]
    returns a list with no items. *)
Theorem detect_objects_returns_empty_list
    (image : val) (self : processor.VisionProcessor) (h : heap) :
  let '(result, (_, h')) := processor.detect_objects image (self, h) in
  list_items h' result = Some [].
Proof.
  unfold processor.detect_objects, new. cbn [fst snd].
  pose proof (list_items_alloc [] h) as Hnew.
  by destruct (alloc (OList []) h) as [l h'].
Qed.

(** ** Planner *)

Section planner_facts.
Import strategy.
Implicit Types (self : Planner) (h : heap) (st : Planner * heap).

(** The two allocations of [create_plan], spelled out. *)
Lemma create_plan_unfold objectives self h :
  create_plan objectives (self, h) =
    let steps := alloc (OList []) h in
    let plan :=
      alloc (ODict [("objectives", objectives); ("steps", VRef steps.1)])
            steps.2 in
    (VRef plan.1, ({| strategy := VRef plan.1 |}, plan.2)).
Proof. reflexivity. Qed.

Lemma execute_plan_unfold st :
  execute_plan st =
    (VStr (if truthy st.2 (strategy st.1) then "Plan executed"
           else "No plan to execute"), st).
Proof.
  destruct st as [self h].
  unfold execute_plan, getattr, test, mbind, M_bind, mret, M_ret. simpl.
  by destruct (truthy h (strategy self)).
Qed.

Lemma create_plan_has_plan objectives st :
  has_plan (create_plan objectives st).2.
Proof.
  destruct st as [self h]. rewrite create_plan_unfold.
  unfold has_plan. cbn [fst snd strategy truthy].
  by rewrite alloc_lookup.
Qed.

(** What [create_plan] builds: the dict is stored and returned, its
    ["objectives"] entry is the argument, whose items are untouched, and
    its ["steps"] entry is a new empty list. *)
Lemma create_plan_stores objectives self h :
  let '(plan, (self', h')) := create_plan objectives (self, h) in
  strategy self' = plan /\
  subscript h' plan "objectives" = Some objectives /\
  (forall objs, str_list h objectives = Some objs ->
                str_list h' objectives = Some objs) /\
  exists steps,
    subscript h' plan "steps" = Some steps /\ list_items h' steps = Some [].
Proof.
  rewrite create_plan_unfold. cbv zeta.
  set (steps := alloc (OList []) h).
  set (plan := alloc (ODict _) steps.2).
  split; [done |].
  split; [by subst plan; rewrite subscript_alloc |].
  split; [by intros objs Hobjs; do 2 apply str_list_frame |].
  exists (VRef steps.1).
  split; [by subst plan; rewrite subscript_alloc |].
  apply list_items_frame. subst steps. apply list_items_alloc.
Qed.

Lemma execute_plan_frame st : (execute_plan st).2 = st.
Proof. by rewrite execute_plan_unfold. Qed.

Lemma invoke_has_plan c st : has_plan st -> has_plan (invoke c st).2.
Proof.
  destruct c as [objectives|]; simpl; intros Hst.
  - apply create_plan_has_plan.
  - by rewrite execute_plan_frame.
Qed.

Lemma after_has_plan calls st : has_plan st -> has_plan (after calls st).
Proof.
  revert st. induction calls as [|c calls IH]; intros st Hst; [done |].
  apply IH, invoke_has_plan, Hst.
Qed.

Lemma after_not_created calls st :
  created calls = false -> after calls st = st.
Proof.
  revert st. induction calls as [|c calls IH]; intros st; [done |].
  destruct c as [objectives|]; [discriminate |].
  simpl. intros Hcalls. rewrite execute_plan_frame. by apply IH.
Qed.

Lemma after_created calls st :
  created calls = true -> has_plan (after calls st).
Proof.
  revert st. induction calls as [|c calls IH]; intros st; [discriminate |].
  destruct c as [objectives|]; simpl; intros Hcalls.
  - apply after_has_plan, create_plan_has_plan.
  - rewrite execute_plan_frame. by apply IH.
Qed.

End planner_facts.

(** C1: on a new planner, [execute_plan()] returns ["No plan to execute"]
    as long as [create_plan] has not been called, and ["Plan executed"]
    once it has been called at least once, whatever calls came before. *)
Theorem execute_plan_before_and_after_create_plan
    (h : heap) (calls : list strategy.invocation) :
  (strategy.created calls = false ->
   (strategy.execute_plan (strategy.after calls (strategy.__init__, h))).1
     = VStr "No plan to execute") /\
  (strategy.created calls = true ->
   (strategy.execute_plan (strategy.after calls (strategy.__init__, h))).1
     = VStr "Plan executed").
Proof.
  split; intros Hcalls; rewrite execute_plan_unfold; simpl.
  - by rewrite after_not_created.
  - by rewrite (after_created calls _ Hcalls).
Qed.

Lemma execute_plan_before_and_after_create_plan_witness :
  (strategy.execute_plan
     (strategy.after [strategy.Execute_plan] (strategy.__init__, ∅))).1
    = VStr "No plan to execute" /\
  (strategy.execute_plan
     (strategy.after
        [strategy.Execute_plan; strategy.Create_plan (VRef 1);
         strategy.Execute_plan]
        (strategy.__init__, one_objective))).1
    = VStr "Plan executed".
Proof.
  split.
  - apply (execute_plan_before_and_after_create_plan ∅ [strategy.Execute_plan]).
    reflexivity.
  - apply (execute_plan_before_and_after_create_plan one_objective
             [strategy.Execute_plan; strategy.Create_plan (VRef 1);
              strategy.Execute_plan]).
    reflexivity.
Defined.

(** C9: [execute_plan()] changes neither the planner's [strategy] nor any
    object on the heap, so the plan, its objectives and its steps are
    what they were. *)
Theorem execute_plan_changes_nothing (self : strategy.Planner) (h : heap) :
  (strategy.execute_plan (self, h)).2 = (self, h).
Proof. apply execute_plan_frame. Qed.

(** C2: called with a non-empty list of strings, [create_plan] returns a
    dict whose ["objectives"] entry is the list it was given, still holding
    the same strings, and whose ["steps"] entry is an empty list; the dict
    returned is the very object the planner stores in [strategy]. *)
Theorem create_plan_returns_the_stored_record
    (objectives : val) (objs : list string)
    (self : strategy.Planner) (h : heap) :
  str_list h objectives = Some objs ->
  objs <> [] ->
  let '(plan, (self', h')) := strategy.create_plan objectives (self, h) in
  strategy.strategy self' = plan /\
  subscript h' plan "objectives" = Some objectives /\
  str_list h' objectives = Some objs /\
  exists steps,
    subscript h' plan "steps" = Some steps /\ list_items h' steps = Some [].
Proof.
  intros Hobjs _.
  pose proof (create_plan_stores objectives self h) as Hplan.
  destruct (strategy.create_plan objectives (self, h)) as [plan [self' h']].
  destruct Hplan as (Hstored & Hobjectives & Hkept & Hsteps).
  auto.
Qed.

Lemma create_plan_returns_the_stored_record_witness :
  str_list one_objective (VRef 1) = Some ["objective1"] /\
  let '(plan, (self', h')) :=
    strategy.create_plan (VRef 1) (strategy.__init__, one_objective) in
  strategy.strategy self' = plan /\
  subscript h' plan "objectives" = Some (VRef 1) /\
  str_list h' (VRef 1) = Some ["objective1"] /\
  exists steps,
    subscript h' plan "steps" = Some steps /\ list_items h' steps = Some [].
Proof.
  split; [reflexivity |].
  apply (create_plan_returns_the_stored_record
           (VRef 1) ["objective1"] strategy.__init__ one_objective).
  - reflexivity.
  - discriminate.
Defined.

(** C10: after [create_plan] is called with an empty list of objectives,
    the stored plan has that empty list as its objectives and
    [execute_plan()] still returns ["Plan executed"]. *)
Theorem execute_plan_after_empty_objectives
    (objectives : val) (self : strategy.Planner) (h : heap) :
  str_list h objectives = Some [] ->
  let st := (strategy.create_plan objectives (self, h)).2 in
  subscript st.2 (strategy.strategy st.1) "objectives" = Some objectives /\
  str_list st.2 objectives = Some [] /\
  (strategy.execute_plan st).1 = VStr "Plan executed".
Proof.
  intros Hobjs st.
  pose proof (create_plan_stores objectives self h) as Hplan.
  pose proof (create_plan_has_plan objectives (self, h)) as Htrue.
  subst st.
  destruct (strategy.create_plan objectives (self, h)) as [plan [self' h']].
  destruct Hplan as (Hstored & Hobjectives & Hkept & _).
  cbn [fst snd] in *. rewrite Hstored, execute_plan_unfold, Htrue. auto.
Qed.

Lemma execute_plan_after_empty_objectives_witness :
  str_list no_objective (VRef 1) = Some [] /\
  let st :=
    (strategy.create_plan (VRef 1) (strategy.__init__, no_objective)).2 in
  subscript st.2 (strategy.strategy st.1) "objectives" = Some (VRef 1) /\
  str_list st.2 (VRef 1) = Some [] /\
  (strategy.execute_plan st).1 = VStr "Plan executed".
Proof.
  split; [reflexivity |].
  apply (execute_plan_after_empty_objectives
           (VRef 1) strategy.__init__ no_objective).
  reflexivity.
Defined.

(** ** The import script *)

Section script_facts.

(** A handled exception whose message can be formatted: the handler's
    line is printed and [test_imports] returns [False]. *)
Lemma test_imports_handles
    (I : imports) (w w' : world) (e : exn) (s : string) :
  try_body I w = (Raises e, w') ->
  isinstance e Exception = true ->
  __str__ e = inl s ->
  test_imports I w =
    (Returns false,
     {| stdout := stdout w' ++
          [if isinstance e ImportError then "❌ Import error: " ++ s
           else "❌ Error: " ++ s];
        mem := mem w' |}).
Proof.
  intros Hbody Hexc Hstr. unfold test_imports, try_except. rewrite Hbody.
  cbn [handle]. rewrite Hexc.
  destruct (isinstance e ImportError);
    unfold mbind, Sc_bind, str; by rewrite Hstr.
Qed.

(** A handled exception whose [__str__] raises: the handler raises before
    it prints, and nothing catches that. *)
Lemma test_imports_handler_raises
    (I : imports) (w w' : world) (e e' : exn) :
  try_body I w = (Raises e, w') ->
  isinstance e Exception = true ->
  __str__ e = inr e' ->
  main I w = (Uncaught e', w').
Proof.
  intros Hbody Hexc Hstr. unfold main, test_imports, try_except.
  rewrite Hbody. cbn [handle]. rewrite Hexc.
  destruct (isinstance e ImportError);
    unfold mbind, Sc_bind, str; by rewrite Hstr.
Qed.

(** Every [ImportError] is an [Exception]. *)
Lemma import_errors_are_exceptions (c : exn_class) :
  issubclass c ImportError = true -> issubclass c Exception = true.
Proof.
  unfold issubclass. rewrite !bool_decide_eq_true.
  induction c as [| | | | | | | |name base IH]; cbn [mro];
    rewrite ?elem_of_cons, ?elem_of_nil; intuition congruence.
Qed.

(** What derives from [BaseException] only ([KeyboardInterrupt],
    [SystemExit], ...) passes both clauses and leaves the script
    uncaught. *)
Lemma test_imports_passes_on (I : imports) (w w' : world) (e : exn) :
  try_body I w = (Raises e, w') ->
  isinstance e Exception = false ->
  main I w = (Uncaught e, w').
Proof.
  intros Hbody Hexc. unfold main, test_imports, try_except. rewrite Hbody.
  cbn [handle]. rewrite Hexc.
  destruct (isinstance e ImportError) eqn:Himp; [| done].
  apply import_errors_are_exceptions in Himp.
  unfold isinstance in Hexc. congruence.
Qed.


Lemma three_lines (out : list string) (a b c : string) :
  (out ++ [a; b; c] = ((out ++ [a]) ++ [b]) ++ [c])%list.
Proof. by rewrite <- !app_assoc. Qed.

End script_facts.

(** C4: with the repository's modules imported and new instances of the
    three classes, [connect()] returns [True], [process_image("test.jpg")]
    returns ["Processed: test.jpg"], [create_plan(["objective1"])] returns
    a dict, not [None], and the script prints its three success lines and
    exits with status 0. *)
Theorem end_to_end_scenario_exits_zero (w : world) :
  (adb.connect (adb.__init__, mem w)).1 = VBool true /\
  (processor.process_image "test.jpg" (processor.__init__, mem w)).1
    = VStr "Processed: test.jpg" /\
  (let '(objectives, h) := alloc (OList [VStr "objective1"]) (mem w) in
   let '(plan, (_, h')) :=
     strategy.create_plan (VRef objectives) (strategy.__init__, h) in
   is_not_None plan = true /\
   subscript h' plan "objectives" = Some (VRef objectives)) /\
  exists h',
    main repository w =
      (Exit 0,
       {| stdout := stdout w ++
            ["✅ All imports successful!";
             "✅ All modules instantiated successfully!";
             "✅ All module functions working correctly!"];
          mem := h' |}).
Proof.
  split; [reflexivity |]. split; [reflexivity |]. split.
  - destruct (alloc _ (mem w)) as [objectives h].
    pose proof (create_plan_stores (VRef objectives) strategy.__init__ h)
      as Hplan.
    destruct (strategy.create_plan _ _) as [plan [self' h']].
    destruct Hplan as (Hstored & Hobjectives & _).
    split; [| done].
    destruct plan; try discriminate Hobjectives; reflexivity.
  - eexists. rewrite three_lines. reflexivity.
Qed.


(** Nor is the handler itself protected: when formatting the caught
    exception raises, that exception escapes and no line is printed. *)
Lemma unprintable_exception_escapes :
  main import_unprintable {| stdout := []; mem := ∅ |} =
    (Uncaught {| class_of := Subclass "TypeError" Exception;
                 __str__ := inl "__str__ returned non-string" |},
     {| stdout := []; mem := ∅ |}).
Proof. reflexivity. Qed.



(** * Further properties *)

(** ** Allocation *)

Section alloc_facts.
Implicit Types (h : heap) (o : obj) (l : loc).

Lemma alloc_unused o h : h !! (alloc o h).1 = None.
Proof. apply fresh_loc_unused. Qed.

Lemma alloc_other o h l o' : h !! l = Some o' -> (alloc o h).1 <> l.
Proof. intros Hl Heq. rewrite <- Heq, alloc_unused in Hl. discriminate. Qed.

Lemma alloc_dom o h : dom (alloc o h).2 = {[ (alloc o h).1 ]} ∪ dom h.
Proof. unfold alloc. simpl. apply dom_insert_L. Qed.

End alloc_facts.

(** ** ADBController over sequences of calls *)

(** X1: after any sequence of [connect]/[disconnect] calls, [connected]
    tells which call came last (and is what it was if there was none), and
    no object on the heap has been touched. *)
Theorem connected_reflects_last_call
    (calls : list adb.invocation) (self : adb.ADBController) (h : heap) :
  adb.connected (adb.after calls (self, h)).1 =
    match last calls with
    | Some adb.Connect => true
    | Some adb.Disconnect => false
    | None => adb.connected self
    end /\
  (adb.after calls (self, h)).2 = h.
Proof.
  induction calls as [|c calls IH] using rev_ind; [done |].
  unfold adb.after in *. rewrite foldl_app, last_snoc. cbn [foldl].
  destruct IH as [_ Hheap].
  destruct (foldl _ (self, h) calls) as [self' h']. cbn [snd] in Hheap.
  subst h'. by destruct c.
Qed.

(** ** VisionProcessor beyond single calls *)

Section processor_facts.
Import processor.
Implicit Types (self : VisionProcessor) (h : heap).

Lemma detect_objects_unfold image self h :
  detect_objects image (self, h) =
    (VRef (alloc (OList []) h).1, (self, (alloc (OList []) h).2)).
Proof. reflexivity. Qed.

Lemma invoke_initialized c self h :
  initialized (invoke c (self, h)).2.1 = initialized self || is_process c.
Proof.
  destruct c as [image_path|image]; cbn [invoke is_process].
  - by rewrite orb_true_r.
  - by rewrite detect_objects_unfold, orb_false_r.
Qed.

End processor_facts.

(** X2: [initialized] is never reset.  After any sequence of calls it is
    true exactly if it was true before or [process_image] was among the
    calls; [detect_objects] alone never sets it. *)
Theorem initialized_iff_processed
    (calls : list processor.invocation)
    (self : processor.VisionProcessor) (h : heap) :
  processor.initialized (processor.after calls (self, h)).1 =
    processor.initialized self || existsb processor.is_process calls.
Proof.
  revert self h. induction calls as [|c calls IH]; intros self h.
  - cbn. by rewrite orb_false_r.
  - unfold processor.after in *. cbn [foldl existsb].
    pose proof (invoke_initialized c self h) as Hc.
    destruct (processor.invoke c (self, h)) as [r [self' h']].
    cbn [fst snd] in *. by rewrite IH, Hc, orb_assoc.
Qed.

(** X3: [detect_objects] builds a new object: the reference returned was
    in use by nothing before the call, every object that existed is left
    as it was, and the instance is unchanged. *)
Theorem detect_objects_allocates_only
    (image : val) (self : processor.VisionProcessor) (h : heap) :
  let '(result, (self', h')) := processor.detect_objects image (self, h) in
  self' = self /\
  (exists l, result = VRef l /\ h !! l = None) /\
  (forall l o, h !! l = Some o -> h' !! l = Some o).
Proof.
  rewrite detect_objects_unfold. split; [done |]. split.
  - eexists. split; [done |]. apply alloc_unused.
  - intros l o. apply alloc_frame.
Qed.

(** X4: two calls of [detect_objects] never return the same list: the
    results are different objects, both empty after the second call. *)
Theorem detect_objects_results_are_distinct
    (image1 image2 : val) (self : processor.VisionProcessor) (h : heap) :
  let '(result1, st1) := processor.detect_objects image1 (self, h) in
  let '(result2, st2) := processor.detect_objects image2 st1 in
  result1 <> result2 /\
  list_items st2.2 result1 = Some [] /\
  list_items st2.2 result2 = Some [].
Proof.
  rewrite !detect_objects_unfold. cbn [snd].
  split; [| split].
  - intros [= Heq].
    apply (alloc_other (OList []) (alloc (OList []) h).2
             (alloc (OList []) h).1 (OList []));
      [apply alloc_lookup | done].
  - apply list_items_frame, list_items_alloc.
  - apply list_items_alloc.
Qed.

Section path_facts.

Lemma substring_whole (s : string) :
  String.substring 0 (String.length s) s = s.
Proof. induction s as [|a s IH]; [done |]. cbn. by rewrite IH. Qed.

Lemma processed_path (s : string) :
  String.substring 11 (String.length s) ("Processed: " ++ s) = s.
Proof. apply substring_whole. Qed.

Lemma processed_length (s : string) :
  String.length ("Processed: " ++ s) = (11 + String.length s)%nat.
Proof. reflexivity. Qed.

End path_facts.

(** X5: on [str] paths the result of [process_image] keeps the whole
    path: the returned string is 11 characters longer than the path, the
    path is what follows these 11 characters, and so no other [str] path
    gives the same result. *)
Theorem process_image_path_is_recoverable
    (s : string) (self : processor.VisionProcessor) (h : heap) :
  exists r,
    (processor.process_image s (self, h)).1 = VStr r /\
    String.length r = (11 + String.length s)%nat /\
    String.substring 11 (String.length s) r = s /\
    forall s' self' h',
      (processor.process_image s' (self', h')).1 = VStr r -> s' = s.
Proof.
  exists ("Processed: " ++ s).
  split; [reflexivity |]. split; [apply processed_length |].
  split; [apply processed_path |].
  intros s' self' h' [= Heq]. exact Heq.
Qed.

(** ** Planner: what [create_plan] allocates and what it leaves alone *)

Section planner_alloc_facts.
Import strategy.
Implicit Types (self : Planner) (h : heap) (st : Planner * heap).

(** The heap after [create_plan], as two insertions at unused places. *)
Lemma create_plan_inserts objectives self h :
  exists lp ls,
    create_plan objectives (self, h) =
      (VRef lp,
       ({| strategy := VRef lp |},
        <[lp := ODict [("objectives", objectives); ("steps", VRef ls)]]>
          (<[ls := OList []]> h))) /\
    h !! ls = None /\ h !! lp = None /\ lp <> ls.
Proof.
  exists (alloc (ODict [("objectives", objectives);
                        ("steps", VRef (alloc (OList []) h).1)])
                (alloc (OList []) h).2).1,
         (alloc (OList []) h).1.
  split; [done |]. split; [apply alloc_unused |].
  assert (forall o, (alloc o (alloc (OList []) h).2).1 <> (alloc (OList []) h).1)
    as Hne by (intros o; apply (alloc_other _ _ _ (OList [])), alloc_lookup).
  split; [| apply Hne].
  pose proof (alloc_unused
    (ODict [("objectives", objectives);
            ("steps", VRef (alloc (OList []) h).1)])
    (alloc (OList []) h).2) as Hlp.
  destruct (h !! _) as [o|] eqn:Hold; [| done].
  apply (alloc_frame (OList [])) in Hold. congruence.
Qed.

Lemma create_plan_frame objectives st l o :
  st.2 !! l = Some o -> (create_plan objectives st).2.2 !! l = Some o.
Proof.
  destruct st as [self h]. rewrite create_plan_unfold. cbn [fst snd].
  intros Hl. by do 2 apply alloc_frame.
Qed.

Lemma invoke_frame c st l o :
  st.2 !! l = Some o -> (invoke c st).2.2 !! l = Some o.
Proof.
  destruct c as [objectives|]; cbn [invoke].
  - apply create_plan_frame.
  - by rewrite execute_plan_frame.
Qed.

Lemma subscript_frame st v k x objectives :
  subscript st.2 v k = Some x ->
  subscript (create_plan objectives st).2.2 v k = Some x.
Proof.
  unfold subscript. destruct v as [| | | |l]; try discriminate.
  destruct (st.2 !! l) as [[xs|es]|] eqn:Hl; try discriminate.
  intros Hk. by rewrite (create_plan_frame objectives st l _ Hl).
Qed.

End planner_alloc_facts.

(** X6: [create_plan] builds exactly two objects, the dict it returns and
    the list under ["steps"], at two different references that nothing
    used before, and leaves every object that existed as it was. *)
Theorem create_plan_allocates_two_objects
    (objectives : val) (self : strategy.Planner) (h : heap) :
  let '(plan, (_, h')) := strategy.create_plan objectives (self, h) in
  exists lp ls,
    plan = VRef lp /\ subscript h' plan "steps" = Some (VRef ls) /\
    lp <> ls /\ h !! lp = None /\ h !! ls = None /\
    dom h' = {[lp; ls]} ∪ dom h /\
    (forall l o, h !! l = Some o -> h' !! l = Some o).
Proof.
  pose proof (create_plan_frame objectives (self, h)) as Hframe.
  destruct (create_plan_inserts objectives self h)
    as (lp & ls & Heq & Hls & Hlp & Hne).
  rewrite Heq in *. cbn [fst snd] in Hframe.
  exists lp, ls. split; [done |].
  split; [by cbn [subscript]; rewrite lookup_insert_eq |].
  do 3 (split; [done |]). split; [| done].
  by rewrite !dom_insert_L, (assoc_L (∪)).
Qed.

(** X7: the dict [create_plan] returns has the keys ["objectives"] and
    ["steps"] and no other. *)
Theorem create_plan_has_exactly_two_keys
    (objectives : val) (self : strategy.Planner) (h : heap) (k : string) :
  let '(plan, (_, h')) := strategy.create_plan objectives (self, h) in
  is_Some (subscript h' plan k) <-> k = "objectives" \/ k = "steps".
Proof.
  destruct (create_plan_inserts objectives self h)
    as (lp & ls & Heq & _). rewrite Heq.
  cbn [subscript]. rewrite lookup_insert_eq. cbn [getitem].
  destruct (String.eqb_spec k "objectives") as [->|Hobj].
  { split; [by left | by eexists]. }
  destruct (String.eqb_spec k "steps") as [->|Hsteps].
  { split; [by right | by eexists]. }
  split; [by intros [x [=]] | by intros [|]].
Qed.

(** X8: a second [create_plan] replaces the stored plan without touching
    the first one.  The two dicts are different objects with different
    ["steps"] lists, the planner holds the second, and the first still has
    the objectives it was built with. *)
Theorem create_plan_twice_keeps_the_first_record
    (objectives1 objectives2 : val) (self : strategy.Planner) (h : heap) :
  let '(plan1, st1) := strategy.create_plan objectives1 (self, h) in
  let '(plan2, st2) := strategy.create_plan objectives2 st1 in
  plan1 <> plan2 /\
  strategy.strategy st2.1 = plan2 /\
  subscript st2.2 plan1 "objectives" = Some objectives1 /\
  subscript st2.2 plan2 "objectives" = Some objectives2 /\
  exists steps1 steps2,
    subscript st2.2 plan1 "steps" = Some steps1 /\
    subscript st2.2 plan2 "steps" = Some steps2 /\
    steps1 <> steps2.
Proof.
  destruct (create_plan_inserts objectives1 self h)
    as (lp1 & ls1 & -> & Hls1 & Hlp1 & Hne1).
  destruct (create_plan_inserts objectives2
              {| strategy.strategy := VRef lp1 |}
              (<[lp1 := ODict [("objectives", objectives1);
                               ("steps", VRef ls1)]]>
                 (<[ls1 := OList []]> h)))
    as (lp2 & ls2 & -> & Hls2 & Hlp2 & Hne2).
  apply lookup_insert_None in Hls2 as [Hls2 Hne3].
  apply lookup_insert_None in Hls2 as [_ Hne4].
  apply lookup_insert_None in Hlp2 as [Hlp2 Hne5].
  apply lookup_insert_None in Hlp2 as [_ Hne6].
  cbn [fst snd subscript strategy.strategy].
  split; [congruence |]. split; [done |].
  rewrite lookup_insert_eq.
  rewrite lookup_insert_ne, lookup_insert_ne, lookup_insert_eq by done.
  split; [done |]. split; [done |].
  exists (VRef ls1), (VRef ls2).
  split; [done |]. split; [done |]. congruence.
Qed.

Section planner_sequences.
Import strategy.
Implicit Types (st : Planner * heap) (calls : list invocation).

Lemma after_snoc calls c st :
  after (calls ++ [c]) st = (invoke c (after calls st)).2.
Proof. unfold after. by rewrite foldl_app. Qed.

Lemma last_objectives_snoc calls c :
  last_objectives (calls ++ [c]) =
    match c with
    | Create_plan objectives => Some objectives
    | Execute_plan => last_objectives calls
    end.
Proof.
  unfold last_objectives. rewrite omap_app.
  destruct c as [objectives|]; cbn [omap objectives_of].
  - apply last_snoc.
  - by rewrite app_nil_r.
Qed.

Lemma after_frame calls st l o :
  st.2 !! l = Some o -> (after calls st).2 !! l = Some o.
Proof.
  revert st. induction calls as [|c calls IH]; intros st Hl; [done |].
  apply IH, invoke_frame, Hl.
Qed.

End planner_sequences.

(** X9: after any sequence of calls on a new planner, the planner holds
    [None] if there was no [create_plan], and otherwise a dict whose
    ["objectives"] entry is the argument of the last [create_plan] and
    whose ["steps"] entry is an empty list: earlier plans are overwritten
    and steps are never filled in. *)
Theorem stored_plan_is_the_last_created
    (calls : list strategy.invocation) (h : heap) :
  let st := strategy.after calls (strategy.__init__, h) in
  match strategy.last_objectives calls with
  | None => strategy.strategy st.1 = VNone
  | Some objectives =>
      subscript st.2 (strategy.strategy st.1) "objectives" = Some objectives /\
      exists steps,
        subscript st.2 (strategy.strategy st.1) "steps" = Some steps /\
        list_items st.2 steps = Some []
  end.
Proof.
  induction calls as [|c calls IH] using rev_ind; [done |].
  rewrite last_objectives_snoc, after_snoc. cbv zeta in *.
  destruct c as [objectives|]; cbn [strategy.invoke].
  - pose proof (create_plan_stores objectives
                  (strategy.after calls (strategy.__init__, h)).1
                  (strategy.after calls (strategy.__init__, h)).2) as Hplan.
    rewrite <- surjective_pairing in Hplan.
    destruct (strategy.create_plan _ _) as [plan [self' h']].
    destruct Hplan as (Hstored & Hobjectives & _ & Hsteps).
    cbn [fst snd]. by rewrite Hstored.
  - by rewrite execute_plan_frame.
Qed.

(** X10: in every state a new planner can reach, the test [if
    self.strategy:] of [execute_plan] agrees with [self.strategy is not
    None]: a stored plan never tests false. *)
Theorem stored_plan_tests_true_iff_not_None
    (calls : list strategy.invocation) (h : heap) :
  let st := strategy.after calls (strategy.__init__, h) in
  truthy st.2 (strategy.strategy st.1) = is_not_None (strategy.strategy st.1).
Proof.
  cbv zeta. destruct (strategy.created calls) eqn:Hcalls.
  - pose proof (after_created calls (strategy.__init__, h) Hcalls) as Hplan.
    unfold strategy.has_plan in Hplan. rewrite Hplan.
    by destruct (strategy.strategy _).
  - by rewrite after_not_created.
Qed.

(** X11: no sequence of [create_plan]/[execute_plan] calls changes an
    object that exists: lists the caller passed in and plans returned
    earlier stay as they are. *)
Theorem planner_calls_keep_existing_objects
    (calls : list strategy.invocation)
    (self : strategy.Planner) (h : heap) (l : loc) (o : obj) :
  h !! l = Some o ->
  (strategy.after calls (self, h)).2 !! l = Some o.
Proof. apply (after_frame calls (self, h)). Qed.

Lemma planner_calls_keep_existing_objects_witness :
  (strategy.after
     [strategy.Create_plan (VRef 1); strategy.Execute_plan;
      strategy.Create_plan VNone]
     (strategy.__init__, one_objective)).2 !! 1%positive
    = Some (OList [VStr "objective1"]).
Proof.
  apply (planner_calls_keep_existing_objects
           [strategy.Create_plan (VRef 1); strategy.Execute_plan;
            strategy.Create_plan VNone]
           strategy.__init__ one_objective 1%positive
           (OList [VStr "objective1"])).
  reflexivity.
Defined.

(** ** The import script: every way it can end *)

Section script_outcomes.

Ltac step_bind :=
  match goal with
  | |- context [match ?c with (_, _) => _ end] =>
      let o := fresh "o" in let w := fresh "w" in
      destruct c as [[o|o] w] eqn:?; try discriminate
  end.

(** The [try] body returns only by running to its last line. *)
Lemma try_body_returns (I : imports) (w w' : world) (b : bool) :
  try_body I w = (Returns b, w') ->
  b = true /\
  exists out,
    stdout w' = (out ++ ["✅ All module functions working correctly!"])%list.
Proof.
  unfold try_body, mbind, Sc_bind.
  repeat step_bind.
  intros [= <- <-]. split; [done |].
  match goal with
  | H : print _ ?w1 = (_, ?w2) |- context [stdout ?w2] =>
      injection H as _ <-; by exists (stdout w1)
  end.
Qed.

End script_outcomes.

(** X12: however the imports behave, the script ends in one of four
    ways: [exit(0)]; [exit(1)]; an exception of the [try] body that is
    not an [Exception] escaping uncaught; or, after an [Exception] of the
    [try] body was caught, the exception its [__str__] raises escaping
    from the handler.  No other status is ever passed to [exit]. *)
Theorem main_ends_in_one_of_four_ways (I : imports) (w : world) :
  (exists w', main I w = (Exit 0, w')) \/
  (exists w', main I w = (Exit 1, w')) \/
  (exists e w',
     try_body I w = (Raises e, w') /\
     isinstance e Exception = false /\
     main I w = (Uncaught e, w')) \/
  (exists e e' w',
     try_body I w = (Raises e, w') /\
     isinstance e Exception = true /\
     __str__ e = inr e' /\
     main I w = (Uncaught e', w')).
Proof.
  destruct (try_body I w) as [[b|e] w'] eqn:Hbody.
  - left. exists w'. apply try_body_returns in Hbody as Hb.
    destruct Hb as [-> _].
    unfold main, test_imports, try_except. by rewrite Hbody.
  - destruct (isinstance e Exception) eqn:Hexc.
    + destruct (__str__ e) as [s|e'] eqn:Hstr.
      * right; left. eexists. unfold main.
        by rewrite (test_imports_handles I w w' e s Hbody Hexc Hstr).
      * do 3 right. exists e, e', w'. split; [done |].
        split; [done |]. split; [done |].
        by apply (test_imports_handler_raises I w w' e e').
    + right; right; left. exists e, w'. split; [done |]. split; [done |].
      by apply test_imports_passes_on.
Qed.




(** X14: when the imports and the three instantiations succeed but
    [connect()] returns a value that does not equal [True], the first
    [assert] fails: nothing further is called, the line printed is the
    error mark with an empty message, and the script exits with 1. *)
Theorem failed_connect_assertion_is_reported
    (I : imports) (w w1 w2 w3 w4 w5 w6 w7 : world)
    (ADBController : ADBController_class)
    (VisionProcessor : VisionProcessor_class)
    (Planner : Planner_class)
    (adb : ADB_instance ADBController)
    (vision : Vision_instance VisionProcessor)
    (planner : Planner_instance Planner)
    (r : val * ADB_instance ADBController) :
  import_ADBController I w = (Returns ADBController, w1) ->
  import_VisionProcessor I w1 = (Returns VisionProcessor, w2) ->
  import_Planner I w2 = (Returns Planner, w3) ->
  ADB_new ADBController
    {| stdout := stdout w3 ++ ["✅ All imports successful!"];
       mem := mem w3 |} = (Returns adb, w4) ->
  Vision_new VisionProcessor w4 = (Returns vision, w5) ->
  Planner_new Planner w5 = (Returns planner, w6) ->
  ADB_connect ADBController adb
    {| stdout := stdout w6 ++ ["✅ All modules instantiated successfully!"];
       mem := mem w6 |} = (Returns r, w7) ->
  eq_True r.1 = false ->
  main I w =
    (Exit 1, {| stdout := stdout w7 ++ ["❌ Error: "]; mem := mem w7 |}).
Proof.
  intros H1 H2 H3 H4 H5 H6 H7 Hr.
  assert (try_body I w =
            (Raises {| class_of := AssertionError; __str__ := inl "" |}, w7))
    as Hbody.
  { unfold try_body, mbind, Sc_bind. rewrite H1, H2, H3.
    unfold print at 1. cbv beta iota. rewrite H4, H5, H6.
    unfold print at 1. cbv beta iota. rewrite H7.
    unfold assert at 1. by rewrite Hr. }
  unfold main. by rewrite (test_imports_handles I w w7 _ "" Hbody).
Qed.

Lemma failed_connect_assertion_is_reported_witness :
  main connect_returns_None {| stdout := []; mem := ∅ |} =
    (Exit 1,
     {| stdout :=
          ["✅ All imports successful!";
           "✅ All modules instantiated successfully!"] ++ ["❌ Error: "];
        mem := ∅ |}).
Proof.
  eapply (failed_connect_assertion_is_reported connect_returns_None
            {| stdout := []; mem := ∅ |} _ _ _ _ _ _
            {| stdout := ["✅ All imports successful!";
                          "✅ All modules instantiated successfully!"];
               mem := ∅ |});
    reflexivity.
Defined.
